(** * Trivy scanner Lambda handler: model and verified properties

    Shallow embedding of [trivy_lambda_setup/lambda_handler.py]:
    [handler], [extract_cvss_score] and [get_trivy_version].

    Python values that travel through the handler are JSON values (the
    Lambda event, the decoded request body, the decoded scanner output), so
    the model is dynamically typed in the same way the code is: every
    operation that Python would reject at run time ([.get] on a non-dict,
    iteration over [None], slicing a number, a non-string command-line
    argument) raises the matching exception in the model.  Characters of a
    [string] stand for the code points of a Python [str] (those below 256).

    The Python library and the world outside are parameters: [json.loads],
    [json.dumps], [str(e)], the clock and [subprocess.run].  Exceptions are
    the subclasses of [Exception]; KeyboardInterrupt and SystemExit, which
    no [except Exception] clause catches, are not modelled. *)

From Stdlib Require Import ZArith List String Ascii Bool Lia PeanoNat.
From Stdlib Require Import Floats.PrimFloat.
Import ListNotations.
Local Open Scope string_scope.
Local Open Scope Z_scope.

(** ** JSON values as Python sees them *)

#[local] Set Warnings "-register-all".

Inductive json : Type :=
| JNull
| JBool (b : bool)
| JInt (z : Z)
| JFloat (f : float)
| JString (s : string)
| JArray (items : list json)
| JObject (fields : list (string * json)).

(** Exceptions, all of them subclasses of Python's [Exception] except that
    [TimeoutExpired] is the one the handler singles out.  [ProcessError]
    stands for whatever else launching a subprocess may raise
    (FileNotFoundError, PermissionError, UnicodeDecodeError, ...). *)
Inductive exn : Type :=
| TimeoutExpired
| JSONDecodeError
| AttributeError
| TypeError
| KeyError
| UnboundLocalError
| ProcessError (what : string).

Inductive result (A : Type) : Type :=
| Ok (a : A)
| Raise (e : exn).
Arguments Ok {A} a.
Arguments Raise {A} e.

Definition bind {A B : Type} (c : result A) (k : A -> result B) : result B :=
  match c with
  | Ok a => k a
  | Raise e => Raise e
  end.

Notation "x <- c ;; k" := (bind c (fun x => k))
  (at level 61, c at next level, right associativity).

(** ** Python primitives on JSON values *)

Module Py.

Fixpoint lookup (key : string) (fields : list (string * json)) : option json :=
  match fields with
  | [] => None
  | (k, v) :: rest => if String.eqb k key then Some v else lookup key rest
  end.

Definition get_field (fields : list (string * json)) (key : string)
    (default : json) : json :=
  match lookup key fields with
  | Some v => v
  | None => default
  end.

(** [d.get(key, default)] *)
Definition get (d : json) (key : string) (default : json) : result json :=
  match d with
  | JObject fields => Ok (get_field fields key default)
  | _ => Raise AttributeError
  end.

(** [bool(v)] *)
Definition truthy (v : json) : bool :=
  match v with
  | JNull => false
  | JBool b => b
  | JInt z => negb (Z.eqb z 0)
  | JFloat f => negb (PrimFloat.eqb f PrimFloat.zero)
  | JString s => negb (String.eqb s "")
  | JArray items => match items with [] => false | _ => true end
  | JObject fields => match fields with [] => false | _ => true end
  end.

(** [v == label] for a [str] label *)
Definition eq_str (v : json) (label : string) : bool :=
  match v with
  | JString s => String.eqb s label
  | _ => false
  end.

Fixpoint is_prefix (p s : string) : bool :=
  match p, s with
  | EmptyString, _ => true
  | String a p', String b s' => Ascii.eqb a b && is_prefix p' s'
  | String _ _, EmptyString => false
  end.

Fixpoint is_substring (p s : string) : bool :=
  is_prefix p s ||
  match s with
  | EmptyString => false
  | String _ s' => is_substring p s'
  end.

(** [key in c] for a [str] key *)
Definition contains (key : string) (c : json) : result bool :=
  match c with
  | JObject fields =>
      Ok (match lookup key fields with Some _ => true | None => false end)
  | JArray items => Ok (existsb (fun v => eq_str v key) items)
  | JString s => Ok (is_substring key s)
  | _ => Raise TypeError
  end.

(** [c[key]] for a [str] key *)
Definition getitem (c : json) (key : string) : result json :=
  match c with
  | JObject fields =>
      match lookup key fields with
      | Some v => Ok v
      | None => Raise KeyError
      end
  | _ => Raise TypeError
  end.

Fixpoint chars (s : string) : list json :=
  match s with
  | EmptyString => []
  | String a s' => JString (String a EmptyString) :: chars s'
  end.

(** the items a [for] loop visits *)
Definition iter (v : json) : result (list json) :=
  match v with
  | JArray items => Ok items
  | JString s => Ok (chars s)
  | JObject fields => Ok (map (fun kv => JString (fst kv)) fields)
  | _ => Raise TypeError
  end.

Fixpoint take (n : nat) (s : string) : string :=
  match n, s with
  | O, _ => EmptyString
  | S _, EmptyString => EmptyString
  | S n', String a s' => String a (take n' s')
  end.

(** [v[:n]]; slicing a dict raises (TypeError up to Python 3.11, KeyError
    from 3.12 on: the handler treats both alike). *)
Definition slice_to (n : nat) (v : json) : result json :=
  match v with
  | JString s => Ok (JString (take n s))
  | JArray items => Ok (JArray (firstn n items))
  | _ => Raise TypeError
  end.

(** [str.isspace] on one character *)
Definition is_space (a : ascii) : bool :=
  let n := nat_of_ascii a in
  ((9 <=? n) && (n <=? 13) || (28 <=? n) && (n <=? 32)
   || (n =? 133) || (n =? 160))%nat.

Fixpoint lstrip (s : string) : string :=
  match s with
  | EmptyString => EmptyString
  | String a s' => if is_space a then lstrip s' else s
  end.

Fixpoint rstrip (s : string) : string :=
  match s with
  | EmptyString => EmptyString
  | String a s' =>
      match rstrip s' with
      | EmptyString => if is_space a then EmptyString else String a EmptyString
      | t => String a t
      end
  end.

Definition strip (s : string) : string := rstrip (lstrip s).

(** [s.split('\n')[0]] *)
Fixpoint first_line (s : string) : string :=
  match s with
  | EmptyString => EmptyString
  | String a s' =>
      if Ascii.eqb a "010"%char then EmptyString else String a (first_line s')
  end.

End Py.

(** ** The handler's data *)

(** One entry of [vulnerabilities] (the dict literal of lines 79-89). *)
Record finding : Type := mkFinding {
  cve_id : json;
  package : json;
  installed_version : json;
  fixed_version : json;
  severity : json;
  cvss_score : json;
  description : json;
  layer : json;
  references : json
}.

Record summary : Type := mkSummary {
  total : nat;
  critical : nat;
  high : nat;
  medium : nat;
  low : nat
}.

Record response : Type := mkResponse {
  statusCode : Z;
  headers : list (string * string);
  body : string
}.

(** What [subprocess.run(..., capture_output=True, text=True)] hands back. *)
Record completed_process : Type := mkCompleted {
  returncode : Z;
  stdout : string;
  stderr : string
}.

Inductive run_outcome : Type :=
| Completed (p : completed_process)
| Raises (e : exn).

Definition cors_headers : list (string * string) :=
  [("Content-Type", "application/json"); ("Access-Control-Allow-Origin", "*")].

Definition finding_fields (v : finding) : list (string * json) :=
  [("cve_id", cve_id v);
   ("package", package v);
   ("installed_version", installed_version v);
   ("fixed_version", fixed_version v);
   ("severity", severity v);
   ("cvss_score", cvss_score v);
   ("description", description v);
   ("layer", layer v);
   ("references", references v)].

Definition finding_json (v : finding) : json := JObject (finding_fields v).

Definition summary_json (s : summary) : json :=
  JObject [("total", JInt (Z.of_nat (total s)));
           ("critical", JInt (Z.of_nat (critical s)));
           ("high", JInt (Z.of_nat (high s)));
           ("medium", JInt (Z.of_nat (medium s)));
           ("low", JInt (Z.of_nat (low s)))].

(** ** extract_cvss_score (lines 144-153) *)

Definition cvss_sources : list string := ["nvd"; "redhat"; "ghsa"].

(** The [for source in ...] loop: the first source that is *present* in
    [cvss] decides the result; [cvss[source]] is evaluated once here, it has
    no effects. *)
Fixpoint cvss_source_loop (cvss : json) (sources : list string) : result json :=
  match sources with
  | [] => Ok (JInt 0)
  | source :: rest =>
      present <- Py.contains source cvss ;;
      if present then
        entry <- Py.getitem cvss source ;;
        v2 <- Py.get entry "V2Score" (JInt 0) ;;
        Py.get entry "V3Score" v2
      else cvss_source_loop cvss rest
  end.

Definition extract_cvss_score (vuln : json) : result json :=
  cvss <- Py.get vuln "CVSS" (JObject []) ;;
  cvss_source_loop cvss cvss_sources.

(** ** Transformation (lines 76-89) *)

Definition normalize (target vuln : json) : result finding :=
  cve <- Py.get vuln "VulnerabilityID" (JString "N/A") ;;
  pkg <- Py.get vuln "PkgName" (JString "Unknown") ;;
  inst <- Py.get vuln "InstalledVersion" (JString "Unknown") ;;
  fixed <- Py.get vuln "FixedVersion" (JString "No fix available") ;;
  sev <- Py.get vuln "Severity" (JString "UNKNOWN") ;;
  score <- extract_cvss_score vuln ;;
  descr <- Py.get vuln "Description" (JString "") ;;
  descr500 <- Py.slice_to 500 descr ;;
  lay <- Py.get target "Target" (JString "Unknown") ;;
  refs <- Py.get vuln "References" (JArray []) ;;
  refs3 <- Py.slice_to 3 refs ;;
  Ok (mkFinding cve pkg inst fixed sev score descr500 lay refs3).

(** inner loop: [for vuln in target.get('Vulnerabilities', [])] *)
Fixpoint vuln_loop (target : json) (vulns : list json) (vulnerabilities : list finding)
  : result (list finding) :=
  match vulns with
  | [] => Ok vulnerabilities
  | vuln :: rest =>
      v <- normalize target vuln ;;
      vuln_loop target rest (vulnerabilities ++ [v])
  end.

(** outer loop: [for target in trivy_output.get('Results', [])] *)
Fixpoint target_loop (targets : list json) (vulnerabilities : list finding)
  : result (list finding) :=
  match targets with
  | [] => Ok vulnerabilities
  | target :: rest =>
      vs <- Py.get target "Vulnerabilities" (JArray []) ;;
      vulns <- Py.iter vs ;;
      vulnerabilities' <- vuln_loop target vulns vulnerabilities ;;
      target_loop rest vulnerabilities'
  end.

Definition transform (trivy_output : json) : result (list finding) :=
  results <- Py.get trivy_output "Results" (JArray []) ;;
  targets <- Py.iter results ;;
  target_loop targets [].

(** ** Summary (lines 92-98) *)

(** [sum(1 for v in vulnerabilities if v['severity'] == label)] *)
Definition count_severity (label : string) (vulnerabilities : list finding) : nat :=
  list_sum (map (fun _ => 1%nat)
                (filter (fun v => Py.eq_str (severity v) label) vulnerabilities)).

Definition summarize (vulnerabilities : list finding) : summary :=
  {| total := List.length vulnerabilities;
     critical := count_severity "CRITICAL" vulnerabilities;
     high := count_severity "HIGH" vulnerabilities;
     medium := count_severity "MEDIUM" vulnerabilities;
     low := count_severity "LOW" vulnerabilities |}.

(** ** The handler (lines 14-141) and get_trivy_version (lines 156-167) *)

Fixpoint str_args (cmd : list json) : option (list string) :=
  match cmd with
  | [] => Some []
  | JString s :: rest =>
      match str_args rest with
      | Some args => Some (s :: args)
      | None => None
      end
  | _ :: _ => None
  end.

Definition trivy_bin : string := "/usr/local/bin/trivy".

Definition version_cmd : list string := [trivy_bin; "--version"].

(** lines 32-49: the request's three settings and the command line. *)
Definition scan_command (image severity ignore_unfixed : json) : list json :=
  [JString trivy_bin; JString "image"; JString "--format"; JString "json";
   JString "--quiet"; JString "--severity"; severity;
   JString "--cache-dir"; JString "/tmp/trivy-cache"]
  ++ (if Py.truthy ignore_unfixed then [JString "--ignore-unfixed"] else [])
  ++ [image].

Definition error_body (message : string) (image : option json) : json :=
  JObject (("error", JString message)
           :: match image with
              | Some i => [("image", i)]
              | None => []
              end).

Definition report_body (image : json) (scan_time : string)
    (vulnerabilities : list finding) (trivy_version : string) : json :=
  JObject [("scanner", JString "Trivy (Lambda)");
           ("image", image);
           ("scan_time", JString scan_time);
           ("vulnerabilities", JArray (map finding_json vulnerabilities));
           ("summary", summary_json (summarize vulnerabilities));
           ("live_data", JBool true);
           ("trivy_version", JString trivy_version)].

Definition timeout_message : string :=
  "Scan timed out. Try a smaller image or increase Lambda timeout.".

Section Runtime.

(** The Python run time and the world outside the handler:
    [json.loads] ([None] for a JSONDecodeError), [json.dumps], [str(e)],
    [datetime.now().isoformat()], and [subprocess.run] with its timeout
    in seconds. *)
Variable json_loads : string -> option json.
Variable json_dumps : json -> string.
Variable exn_str : exn -> string.
Variable now_isoformat : string.
Variable subprocess_run : list string -> Z -> run_outcome.

Definition loads (s : string) : result json :=
  match json_loads s with
  | Some v => Ok v
  | None => Raise JSONDecodeError
  end.

(** [subprocess.run(cmd, ...)]: an argument that is not a [str] is a
    TypeError before any process starts. *)
Definition run (cmd : list json) (timeout : Z) : result completed_process :=
  match str_args cmd with
  | None => Raise TypeError
  | Some args =>
      match subprocess_run args timeout with
      | Completed p => Ok p
      | Raises e => Raise e
      end
  end.

Definition get_trivy_version : string :=
  match subprocess_run version_cmd 10 with
  | Completed p => Py.first_line (Py.strip (stdout p))
  | Raises _ => "Unknown"
  end.

Definition respond (status : Z) (payload : json) : response :=
  {| statusCode := status; headers := cors_headers; body := json_dumps payload |}.

(** lines 27-30 *)
Definition parse_body (event : json) : result json :=
  b <- Py.get event "body" JNull ;;
  match b with
  | JString s => loads s
  | _ =>
      b' <- Py.get event "body" (JObject []) ;;
      Ok (if Py.truthy b' then b' else JObject [])
  end.

(** lines 59-117: from the finished scan ([result] in the source) to the
    response *)
Definition report_scan (image : json) (proc : completed_process)
  : result response :=
  if negb (returncode proc =? 0) && negb (Py.truthy (JString (stdout proc)))
  then
    Ok (respond 500
          (error_body ("Trivy scan failed: " ++ stderr proc) (Some image)))
  else
    trivy_output <- (if Py.truthy (JString (stdout proc))
                     then loads (stdout proc)
                     else Ok (JObject [])) ;;
    vulnerabilities <- transform trivy_output ;;
    Ok (respond 200
          (report_body image now_isoformat vulnerabilities get_trivy_version)).

(** lines 32-117, once [body] is bound *)
Definition scan_and_report (body : json) : result response :=
  image <- Py.get body "image" (JString "nginx:latest") ;;
  severity <- Py.get body "severity" (JString "CRITICAL,HIGH,MEDIUM,LOW") ;;
  ignore_unfixed <- Py.get body "ignore_unfixed" (JBool false) ;;
  let cmd := scan_command image severity ignore_unfixed in
  proc <- run cmd 280 ;;
  report_scan image proc.

(** The two [except] clauses.  [body] is the local variable of the [try]
    block, unbound when the exception came from binding it. *)
Definition except (body : option json) (e : exn) : result response :=
  match e with
  | TimeoutExpired =>
      match body with
      | None => Raise UnboundLocalError
      | Some b =>
          image <- Py.get b "image" (JString "unknown") ;;
          Ok (respond 504 (error_body timeout_message (Some image)))
      end
  | _ => Ok (respond 500 (error_body (exn_str e) None))
  end.

Definition handler (event : json) : result response :=
  match parse_body event with
  | Raise e => except None e
  | Ok body =>
      match scan_and_report body with
      | Ok r => Ok r
      | Raise e => except (Some body) e
      end
  end.

End Runtime.

(** ** Vocabulary of the statements *)

(** The command line of a request whose body is the dict [fields]. *)
Definition request_command (fields : list (string * json)) : list json :=
  scan_command (Py.get_field fields "image" (JString "nginx:latest"))
               (Py.get_field fields "severity" (JString "CRITICAL,HIGH,MEDIUM,LOW"))
               (Py.get_field fields "ignore_unfixed" (JBool false)).

(** The image handed to the scanner: the last word of the command line. *)
Definition scanned_image (fields : list (string * json)) : json :=
  last (request_command fields) JNull.

Definition is_object (v : json) : bool :=
  match v with JObject _ => true | _ => false end.

Definition is_string (v : json) : bool :=
  match v with JString _ => true | _ => false end.






(** A finding's severity is exactly the label. *)
Definition has_severity (label : string) (v : finding) : Prop :=
  severity v = JString label.

Definition has_severity_dec (label : string) (v : finding)
  : {has_severity label v} + {~ has_severity label v}.
Proof.
  unfold has_severity.
  destruct (severity v) as [ | b | z | f | s | items | fields ];
    try (right; discriminate).
  destruct (string_dec s label) as [E | N].
  - left. now rewrite E.
  - right. intros H. apply N. now inversion H.
Defined.

(** Number of findings with the property [P]. *)
Fixpoint number_of {P : finding -> Prop} (dec : forall v, {P v} + {~ P v})
    (vs : list finding) : nat :=
  match vs with
  | [] => O
  | v :: rest => if dec v then S (number_of dec rest) else number_of dec rest
  end.

Definition bucket_labels : list string := ["CRITICAL"; "HIGH"; "MEDIUM"; "LOW"].

Definition recognized (v : finding) : Prop :=
  exists label, In label bucket_labels /\ has_severity label v.

Definition named_buckets (s : summary) : nat :=
  (critical s + high s + medium s + low s)%nat.

(** The weight of one finding in the four named buckets together. *)
Definition bucket_weight (v : finding) : nat :=
  ((if Py.eq_str (severity v) "CRITICAL" then 1 else 0)
   + (if Py.eq_str (severity v) "HIGH" then 1 else 0)
   + (if Py.eq_str (severity v) "MEDIUM" then 1 else 0)
   + (if Py.eq_str (severity v) "LOW" then 1 else 0))%nat.




(** Following the specification's data model: the severity enumeration,
    and the labels of a comma-separated filter. *)
Definition severity_enumeration : list string :=
  ["CRITICAL"; "HIGH"; "MEDIUM"; "LOW"; "UNKNOWN"].

Fixpoint split_on (sep : ascii) (s : string) : list string :=
  match s with
  | EmptyString => [EmptyString]
  | String a s' =>
      if Ascii.eqb a sep then EmptyString :: split_on sep s'
      else match split_on sep s' with
           | [] => [String a EmptyString]
           | w :: ws => String a w :: ws
           end
  end.

Definition filter_labels (severity_filter : string) : list string :=
  split_on ","%char severity_filter.

(** The word after [--severity] on the command line. *)
Definition requested_severity (fields : list (string * json)) : json :=
  nth 6 (request_command fields) JNull.


(** The computation does not end in TimeoutExpired. *)
Definition quiet {A : Type} (c : result A) : Prop := c <> Raise TimeoutExpired.


(** ** Sample data and a sample world for the examples *)

Module Example.



(** A finding that only names its package. *)
Definition bare_finding : list (string * json) :=
  [("PkgName", JString "openssl"); ("Severity", JString "HIGH")].

Definition dq : string := String (ascii_of_nat 34) EmptyString.
Definition nl : string := String (ascii_of_nat 10) EmptyString.
Definition quoted (s : string) : string := dq ++ s ++ dq.

(** Scanner output with one target and one finding, as text and decoded. *)
Definition report_text : string :=
  "{" ++ quoted "Results" ++ ": [{" ++ quoted "Target" ++ ": "
  ++ quoted "nginx:latest (debian 12.5)" ++ ", " ++ quoted "Vulnerabilities"
  ++ ": [{" ++ quoted "VulnerabilityID" ++ ": " ++ quoted "CVE-2024-0001"
  ++ ", " ++ quoted "Severity" ++ ": " ++ quoted "HIGH" ++ "}]}]}".

Definition report : json :=
  JObject [("Results",
            JArray [JObject [("Target", JString "nginx:latest (debian 12.5)");
                             ("Vulnerabilities",
                              JArray [JObject [("VulnerabilityID", JString "CVE-2024-0001");
                                               ("Severity", JString "HIGH")]])]])].

Definition report_finding : finding :=
  {| cve_id := JString "CVE-2024-0001";
     package := JString "Unknown";
     installed_version := JString "Unknown";
     fixed_version := JString "No fix available";
     severity := JString "HIGH";
     cvss_score := JInt 0;
     description := JString "";
     layer := JString "nginx:latest (debian 12.5)";
     references := JArray [] |}.

(** [json.loads] on the texts the examples use; no other text reaches it. *)
Definition json_loads (s : string) : option json :=
  if String.eqb s "[]" then Some (JArray [])
  else if String.eqb s report_text then Some report
  else None.

(** Stand-ins for [json.dumps] and [str(e)]: the examples never look inside
    the texts they produce. *)
Definition json_dumps (v : json) : string := "<json>".

Definition exn_str (e : exn) : string :=
  match e with
  | TimeoutExpired => "TimeoutExpired"
  | JSONDecodeError => "JSONDecodeError"
  | AttributeError => "AttributeError"
  | TypeError => "TypeError"
  | KeyError => "KeyError"
  | UnboundLocalError => "UnboundLocalError"
  | ProcessError what => what
  end.

Definition now_isoformat : string := "2024-05-01T12:00:00.000000".

Definition is_version_query (args : list string) : bool :=
  match args with
  | [bin; flag] => String.eqb bin trivy_bin && String.eqb flag "--version"
  | _ => false
  end.

Definition version_output : string :=
  "Version: 0.50.1" ++ nl ++ "Vulnerability DB:" ++ nl.

(** A world in which the scan ends as [scan] says and the version query as
    [version] says. *)
Definition world (scan version : run_outcome) (args : list string) (timeout : Z)
  : run_outcome :=
  if is_version_query args then version else scan.

Definition version_ok : run_outcome :=
  Completed (mkCompleted 0 version_output "").


(** A world whose scanner only runs when its last word, the image, is
    empty. *)
Definition world_of_the_empty_image (args : list string) (timeout : Z)
  : run_outcome :=
  if is_version_query args then version_ok
  else if String.eqb (last args "none") "" then Completed (mkCompleted 0 "" "")
  else Raises (ProcessError "an image was named").

Definition event_with_body (fields : list (string * json)) : json :=
  JObject [("body", JObject fields)].

(** The words of a scan of [image] with the default filter. *)
Definition default_args (image : string) : list string :=
  [trivy_bin; "image"; "--format"; "json"; "--quiet"; "--severity";
   "CRITICAL,HIGH,MEDIUM,LOW"; "--cache-dir"; "/tmp/trivy-cache"; image].

(** The handler in the sample run time. *)
Definition handler (world : list string -> Z -> run_outcome) (event : json)
  : result response :=
  handler json_loads json_dumps exn_str now_isoformat world event.

Definition status (r : result response) : option Z :=
  match r with
  | Ok r => Some (statusCode r)
  | Raise _ => None
  end.

End Example.

(** ** Vocabulary of the further statements *)

(** The words of the one scan a request leads to; [None] when the request
    is turned down before any process starts (the body does not decode, is
    not a dict, or names an image or filter that is not a string). *)
Definition scan_words (json_loads : string -> option json) (event : json)
  : option (list string) :=
  match parse_body json_loads event with
  | Ok (JObject fields) => str_args (request_command fields)
  | _ => None
  end.

(** What the two loops of the transformation visit: the targets of the
    scanner's output and, for one target, its raw findings. *)
Definition raw_targets (trivy_output : json) : list json :=
  match trivy_output with
  | JObject f =>
      match Py.iter (Py.get_field f "Results" (JArray [])) with
      | Ok targets => targets
      | Raise _ => []
      end
  | _ => []
  end.

Definition raw_findings (target : json) : list (json * json) :=
  match target with
  | JObject tf =>
      match Py.iter (Py.get_field tf "Vulnerabilities" (JArray [])) with
      | Ok vulns => map (pair target) vulns
      | Raise _ => []
      end
  | _ => []
  end.

(** A string of at most [n] characters or a list of at most [n] items. *)
Definition at_most (n : nat) (v : json) : Prop :=
  match v with
  | JString s => (String.length s <= n)%nat
  | JArray items => (List.length items <= n)%nat
  | _ => False
  end.

Definition newline : ascii := "010"%char.

Fixpoint has_char (a : ascii) (s : string) : bool :=
  match s with
  | EmptyString => false
  | String b s' => Ascii.eqb a b || has_char a s'
  end.

Definition starts_with_space (s : string) : bool :=
  match s with
  | EmptyString => false
  | String a _ => Py.is_space a
  end.

Fixpoint ends_with_space (s : string) : bool :=
  match s with
  | EmptyString => false
  | String a EmptyString => Py.is_space a
  | String _ s' => ends_with_space s'
  end.

(** A second sample run time: its decoder also knows the text of the empty
    object. *)
Module Sample.

Definition json_loads (s : string) : option json :=
  if String.eqb s "{}" then Some (JObject []) else Example.json_loads s.

Definition handler (world : list string -> Z -> run_outcome) (event : json)
  : result response :=
  handler json_loads Example.json_dumps Example.exn_str Example.now_isoformat
    world event.

Definition event_with_text (text : string) : json :=
  JObject [("body", JString text)].

End Sample.

(** * Properties *)

(** ** Summary *)

Lemma count_severity_cons (label : string) (v : finding) (vs : list finding) :
  count_severity label (v :: vs)
  = ((if Py.eq_str (severity v) label then 1 else 0) + count_severity label vs)%nat.
Proof.
  unfold count_severity; simpl.
  destruct (Py.eq_str (severity v) label); reflexivity.
Qed.

Lemma eq_str_has_severity (label : string) (v : finding) :
  Py.eq_str (severity v) label = true <-> has_severity label v.
Proof.
  unfold has_severity, Py.eq_str.
  destruct (severity v); try (split; discriminate).
  rewrite String.eqb_eq. split.
  - now intros ->.
  - now intros [= ->].
Qed.

Lemma count_severity_number_of (label : string) (vs : list finding) :
  count_severity label vs = number_of (has_severity_dec label) vs.
Proof.
  induction vs as [ | v vs IH ]; [ reflexivity | ].
  rewrite count_severity_cons, IH; simpl.
  destruct (has_severity_dec label v) as [Y | N].
  - apply eq_str_has_severity in Y. now rewrite Y.
  - destruct (Py.eq_str (severity v) label) eqn:E; [ | reflexivity ].
    apply eq_str_has_severity in E. contradiction.
Qed.

Lemma bucket_weight_le (v : finding) : (bucket_weight v <= 1)%nat.
Proof.
  unfold bucket_weight, Py.eq_str.
  destruct (severity v) as [ | | | | s | | ]; simpl; try lia.
  destruct (String.eqb_spec s "CRITICAL") as [-> | _]; simpl; [ lia | ].
  destruct (String.eqb_spec s "HIGH") as [-> | _]; simpl; [ lia | ].
  destruct (String.eqb_spec s "MEDIUM") as [-> | _]; simpl; [ lia | ].
  destruct (s =? "LOW")%string; lia.
Qed.

Lemma bucket_weight_recognized (v : finding) :
  bucket_weight v = 1%nat <-> recognized v.
Proof.
  unfold recognized, bucket_labels. split.
  - intros W.
    destruct (Py.eq_str (severity v) "CRITICAL") eqn:C;
      [ exists "CRITICAL"; split; [ simpl; tauto | now apply eq_str_has_severity ] | ].
    destruct (Py.eq_str (severity v) "HIGH") eqn:H;
      [ exists "HIGH"; split; [ simpl; tauto | now apply eq_str_has_severity ] | ].
    destruct (Py.eq_str (severity v) "MEDIUM") eqn:M;
      [ exists "MEDIUM"; split; [ simpl; tauto | now apply eq_str_has_severity ] | ].
    destruct (Py.eq_str (severity v) "LOW") eqn:L;
      [ exists "LOW"; split; [ simpl; tauto | now apply eq_str_has_severity ] | ].
    unfold bucket_weight in W. rewrite C, H, M, L in W. discriminate.
  - intros (label & Hin & Hsev).
    pose proof (bucket_weight_le v) as Hle.
    apply eq_str_has_severity in Hsev.
    assert (1 <= bucket_weight v)%nat; [ | lia ].
    unfold bucket_weight.
    simpl in Hin.
    destruct Hin as [<- | [<- | [<- | [<- | []]]]]; rewrite Hsev; lia.
Qed.

Lemma named_buckets_cons (v : finding) (vs : list finding) :
  named_buckets (summarize (v :: vs))
  = (bucket_weight v + named_buckets (summarize vs))%nat.
Proof.
  unfold named_buckets, summarize, bucket_weight; simpl.
  rewrite !count_severity_cons. lia.
Qed.

Lemma named_buckets_le (vs : list finding) :
  (named_buckets (summarize vs) <= List.length vs)%nat.
Proof.
  induction vs as [ | v vs IH ]; [ apply Nat.le_refl | ].
  rewrite named_buckets_cons. pose proof (bucket_weight_le v).
  simpl List.length. lia.
Qed.

(** C3.  For every list of findings, [total] is its length, each named
    bucket is the number of findings whose severity is exactly that label,
    the four buckets together are at most [total], and they add up to
    [total] exactly when every finding carries one of the four labels. *)
Theorem summary_is_a_fold (vs : list finding) :
  total (summarize vs) = List.length vs
  /\ critical (summarize vs) = number_of (has_severity_dec "CRITICAL") vs
  /\ high (summarize vs) = number_of (has_severity_dec "HIGH") vs
  /\ medium (summarize vs) = number_of (has_severity_dec "MEDIUM") vs
  /\ low (summarize vs) = number_of (has_severity_dec "LOW") vs
  /\ (named_buckets (summarize vs) <= total (summarize vs))%nat
  /\ (named_buckets (summarize vs) = total (summarize vs) <-> Forall recognized vs).
Proof.
  change (total (summarize vs)) with (List.length vs).
  split; [ reflexivity | ].
  do 4 (split; [ apply count_severity_number_of | ]).
  split; [ apply named_buckets_le | ].
  split.
  - induction vs as [ | v vs IH ]; intros E; [ constructor | ].
    rewrite named_buckets_cons in E.
    pose proof (bucket_weight_le v) as Hv.
    pose proof (named_buckets_le vs) as Hvs.
    simpl List.length in E.
    constructor.
    + apply bucket_weight_recognized. lia.
    + apply IH. lia.
  - induction 1 as [ | v vs Hv Hvs IH ]; [ reflexivity | ].
    rewrite named_buckets_cons. apply bucket_weight_recognized in Hv.
    simpl List.length. lia.
Qed.

(** ** The exception monad *)

Lemma bind_ok {A B : Type} (c : result A) (k : A -> result B) (b : B) :
  bind c k = Ok b -> exists a, c = Ok a /\ k a = Ok b.
Proof.
  destruct c as [a | e]; simpl; [ | discriminate ].
  intros H. now exists a.
Qed.

Ltac invert_binds H :=
  repeat (let a := fresh "a" in
          let E := fresh "E" in
          apply bind_ok in H; destruct H as (a & E & H)).

(** ** CVSS score *)




(** ** Request defaults and the command line *)

Lemma scanned_image_field (fields : list (string * json)) :
  scanned_image fields = Py.get_field fields "image" (JString "nginx:latest").
Proof.
  unfold scanned_image, request_command, scan_command.
  rewrite app_assoc. apply last_last.
Qed.

Lemma requested_severity_field (fields : list (string * json)) :
  requested_severity fields
  = Py.get_field fields "severity" (JString "CRITICAL,HIGH,MEDIUM,LOW").
Proof. reflexivity. Qed.

(** C7, as stated, fails: with no [severity] in the body the filter on the
    command line is CRITICAL,HIGH,MEDIUM,LOW, which leaves out the label
    UNKNOWN of the enumeration. *)
Lemma default_severity_leaves_out_unknown :
  requested_severity [] = JString "CRITICAL,HIGH,MEDIUM,LOW"
  /\ In "UNKNOWN" severity_enumeration
  /\ ~ In "UNKNOWN" (filter_labels "CRITICAL,HIGH,MEDIUM,LOW").
Proof.
  split; [ reflexivity | ].
  split; [ simpl; tauto | ].
  vm_compute. intros H.
  repeat (destruct H as [H | H]; [ discriminate H | ]).
  exact H.
Qed.

(** C7, amended.  Without [image] the scan runs on nginx:latest; without
    [severity] the filter is CRITICAL,HIGH,MEDIUM,LOW, the four labels of
    the summary's buckets; without [ignore_unfixed] the command line is the
    one of a false flag. *)
Theorem request_defaults (fields : list (string * json)) :
  (Py.lookup "image" fields = None ->
   scanned_image fields = JString "nginx:latest")
  /\ (Py.lookup "severity" fields = None ->
      requested_severity fields = JString "CRITICAL,HIGH,MEDIUM,LOW")
  /\ filter_labels "CRITICAL,HIGH,MEDIUM,LOW" = bucket_labels
  /\ (Py.lookup "ignore_unfixed" fields = None ->
      request_command fields
      = scan_command (scanned_image fields) (requested_severity fields) (JBool false)).
Proof.
  rewrite scanned_image_field, requested_severity_field.
  unfold request_command, Py.get_field.
  repeat split.
  - now intros ->.
  - now intros ->.
  - now intros ->.
Qed.

Lemma request_defaults_witness :
  scanned_image [] = JString "nginx:latest"
  /\ requested_severity [] = JString "CRITICAL,HIGH,MEDIUM,LOW"
  /\ request_command []
     = scan_command (JString "nginx:latest")
                    (JString "CRITICAL,HIGH,MEDIUM,LOW") (JBool false).
Proof.
  destruct (request_defaults []) as (Hi & Hs & _ & Hu).
  split; [ exact (Hi eq_refl) | ].
  split; [ exact (Hs eq_refl) | ].
  exact (Hu eq_refl).
Defined.

(** ** Normalization of one finding *)

(** C8.  When the raw finding has no FixedVersion the normalized finding
    carries the text "No fix available" under [fixed_version]; likewise a
    missing VulnerabilityID gives "N/A", a missing PkgName or
    InstalledVersion gives "Unknown"; the key is there and its value is a
    string, not null. *)
Theorem normalize_sentinels (target : json) (fields : list (string * json))
    (v : finding) :
  normalize target (JObject fields) = Ok v ->
  (Py.lookup "FixedVersion" fields = None ->
   Py.lookup "fixed_version" (finding_fields v) = Some (JString "No fix available"))
  /\ (Py.lookup "VulnerabilityID" fields = None ->
      Py.lookup "cve_id" (finding_fields v) = Some (JString "N/A"))
  /\ (Py.lookup "PkgName" fields = None ->
      Py.lookup "package" (finding_fields v) = Some (JString "Unknown"))
  /\ (Py.lookup "InstalledVersion" fields = None ->
      Py.lookup "installed_version" (finding_fields v) = Some (JString "Unknown")).
Proof.
  intros H. unfold normalize in H. simpl in H.
  invert_binds H.
  injection H as <-. simpl.
  unfold Py.get_field.
  repeat split; now intros ->.
Qed.

Lemma normalize_sentinels_witness :
  Py.lookup "fixed_version"
    (finding_fields
       (mkFinding (JString "N/A") (JString "openssl") (JString "Unknown")
          (JString "No fix available") (JString "HIGH") (JInt 0) (JString "")
          (JString "Unknown") (JArray [])))
  = Some (JString "No fix available").
Proof.
  exact (proj1 (normalize_sentinels (JObject []) Example.bare_finding _ eq_refl)
               eq_refl).
Defined.

(** C9, as stated, fails: a request whose [image] is the empty string is
    scanned as it is; the scanner is started with an empty last word and
    the report names the empty image. *)
Lemma empty_image_reaches_the_scanner :
  scanned_image [("image", JString "")] = JString ""
  /\ str_args (request_command [("image", JString "")])
     = Some (Example.default_args "")
  /\ Example.status
       (Example.handler Example.world_of_the_empty_image
          (Example.event_with_body [("image", JString "")]))
     = Some 200.
Proof. repeat split; reflexivity. Qed.

(** C9, amended.  The image handed to the scanner is the request's [image]
    as it was given, whatever it is, and the non-empty default nginx:latest
    when the request has none. *)
Theorem scanned_image_verbatim_or_default (fields : list (string * json)) :
  (forall image, Py.lookup "image" fields = Some image ->
                 scanned_image fields = image)
  /\ (Py.lookup "image" fields = None ->
      scanned_image fields = JString "nginx:latest"
      /\ Py.truthy (scanned_image fields) = true).
Proof.
  rewrite scanned_image_field. unfold Py.get_field.
  split.
  - now intros image ->.
  - intros ->. split; reflexivity.
Qed.

Lemma scanned_image_verbatim_or_default_witness :
  scanned_image [("image", JString "alpine:3.19")] = JString "alpine:3.19"
  /\ scanned_image [] = JString "nginx:latest".
Proof.
  split.
  - exact (proj1 (scanned_image_verbatim_or_default
                    [("image", JString "alpine:3.19")]) _ eq_refl).
  - exact (proj1 (proj2 (scanned_image_verbatim_or_default []) eq_refl)).
Defined.

(** ** Which operations can time out *)

Lemma quiet_ok {A : Type} (a : A) : quiet (Ok a).
Proof. discriminate. Qed.

Lemma quiet_bind {A B : Type} (c : result A) (k : A -> result B) :
  quiet c -> (forall a, quiet (k a)) -> quiet (bind c k).
Proof.
  intros Hc Hk. destruct c as [a | e]; simpl; [ apply Hk | ].
  intros [= ->]. now apply Hc.
Qed.

Lemma quiet_get (d : json) (key : string) (default : json) :
  quiet (Py.get d key default).
Proof. destruct d; discriminate. Qed.

Lemma quiet_contains (key : string) (c : json) : quiet (Py.contains key c).
Proof. destruct c; discriminate. Qed.

Lemma quiet_getitem (c : json) (key : string) : quiet (Py.getitem c key).
Proof.
  destruct c; try discriminate.
  simpl. destruct (Py.lookup key fields); discriminate.
Qed.

Lemma quiet_iter (v : json) : quiet (Py.iter v).
Proof. destruct v; discriminate. Qed.

Lemma quiet_slice_to (n : nat) (v : json) : quiet (Py.slice_to n v).
Proof. destruct v; discriminate. Qed.

Create HintDb quiet.
#[local] Hint Resolve quiet_ok quiet_get quiet_contains quiet_getitem
  quiet_iter quiet_slice_to : quiet.

Ltac quiet_steps :=
  repeat (first [ solve [ auto with quiet ] | apply quiet_bind; [ | intros ? ] ]).

Lemma quiet_cvss_source_loop (cvss : json) (sources : list string) :
  quiet (cvss_source_loop cvss sources).
Proof.
  induction sources as [ | source rest IH ]; simpl; [ apply quiet_ok | ].
  apply quiet_bind; [ apply quiet_contains | ].
  intros [ | ]; [ quiet_steps | exact IH ].
Qed.

Lemma quiet_extract_cvss_score (vuln : json) : quiet (extract_cvss_score vuln).
Proof.
  unfold extract_cvss_score.
  apply quiet_bind; [ apply quiet_get | intros cvss ].
  apply quiet_cvss_source_loop.
Qed.

#[local] Hint Resolve quiet_extract_cvss_score : quiet.

Lemma quiet_normalize (target vuln : json) : quiet (normalize target vuln).
Proof. unfold normalize. quiet_steps. Qed.

Lemma quiet_vuln_loop (target : json) (vulns : list json) :
  forall acc, quiet (vuln_loop target vulns acc).
Proof.
  induction vulns as [ | vuln rest IH ]; intros acc; simpl; [ apply quiet_ok | ].
  apply quiet_bind; [ apply quiet_normalize | intros v; apply IH ].
Qed.

Lemma quiet_target_loop (targets : list json) :
  forall acc, quiet (target_loop targets acc).
Proof.
  induction targets as [ | target rest IH ]; intros acc; simpl; [ apply quiet_ok | ].
  apply quiet_bind; [ apply quiet_get | intros vs ].
  apply quiet_bind; [ apply quiet_iter | intros vulns ].
  apply quiet_bind; [ apply quiet_vuln_loop | intros acc'; apply IH ].
Qed.

Lemma quiet_transform (trivy_output : json) : quiet (transform trivy_output).
Proof.
  unfold transform.
  apply quiet_bind; [ apply quiet_get | intros results ].
  apply quiet_bind; [ apply quiet_iter | intros targets ].
  apply quiet_target_loop.
Qed.



(** ** The handler *)

Section HandlerProperties.

Variable json_loads : string -> option json.
Variable json_dumps : json -> string.
Variable exn_str : exn -> string.
Variable now_isoformat : string.

Implicit Types world : list string -> Z -> run_outcome.

Lemma quiet_loads (s : string) : quiet (loads json_loads s).
Proof. unfold loads. destruct (json_loads s); discriminate. Qed.

Lemma quiet_parse_body (event : json) : quiet (parse_body json_loads event).
Proof.
  unfold parse_body.
  apply quiet_bind; [ apply quiet_get | intros b ].
  destruct b; try (apply quiet_bind; [ apply quiet_get | intros; apply quiet_ok ]).
  apply quiet_loads.
Qed.

Lemma scan_and_report_object world (fields : list (string * json)) :
  scan_and_report json_loads json_dumps now_isoformat world (JObject fields)
  = (proc <- run world (request_command fields) 280 ;;
     report_scan json_loads json_dumps now_isoformat world
       (Py.get_field fields "image" (JString "nginx:latest")) proc).
Proof. reflexivity. Qed.

Lemma scan_and_report_not_object world (body : json) :
  is_object body = false ->
  scan_and_report json_loads json_dumps now_isoformat world body
  = Raise AttributeError.
Proof. destruct body; simpl; intros H; try reflexivity; discriminate. Qed.

Lemma report_scan_outcome world (image : json) (proc : completed_process) :
  (exists status payload,
      report_scan json_loads json_dumps now_isoformat world image proc
      = Ok (respond json_dumps status payload)
      /\ (status = 200 \/ status = 500))
  \/ (exists e,
         report_scan json_loads json_dumps now_isoformat world image proc = Raise e
         /\ e <> TimeoutExpired).
Proof.
  unfold report_scan.
  destruct (negb (returncode proc =? 0)
            && negb (Py.truthy (JString (stdout proc)))).
  - left. eexists _, _. split; [ reflexivity | now right ].
  - set (decoded := if Py.truthy (JString (stdout proc))
                    then loads json_loads (stdout proc) else Ok (JObject [])).
    assert (quiet decoded) as Hq.
    { subst decoded. destruct (Py.truthy _); [ apply quiet_loads | apply quiet_ok ]. }
    destruct decoded as [out | e]; simpl.
    + pose proof (quiet_transform out) as Ht.
      destruct (transform out) as [vs | e]; simpl.
      * left. eexists _, _. split; [ reflexivity | now left ].
      * right. exists e. split; [ reflexivity | ]. intros ->. now apply Ht.
    + right. exists e. split; [ reflexivity | ]. intros ->. now apply Hq.
Qed.






(** ** The success path *)






Lemma truthy_string (s : string) :
  Py.truthy (JString s) = true <-> s <> "".
Proof.
  simpl. destruct (String.eqb_spec s ""); simpl; split; congruence.
Qed.


(** C10.  A scan that exits with status zero and writes nothing gives 200
    with no findings, a summary of zeros and [live_data] true. *)
Theorem silent_success_is_an_empty_report world (event : json)
    (fields : list (string * json)) (args : list string)
    (proc : completed_process) :
  parse_body json_loads event = Ok (JObject fields) ->
  str_args (request_command fields) = Some args ->
  world args 280 = Completed proc ->
  returncode proc = 0 ->
  stdout proc = "" ->
  exists payload,
    handler json_loads json_dumps exn_str now_isoformat world event
    = Ok (respond json_dumps 200 (JObject payload))
    /\ JObject payload
       = report_body (scanned_image fields) now_isoformat []
           (get_trivy_version world)
    /\ Py.lookup "vulnerabilities" payload = Some (JArray [])
    /\ Py.lookup "summary" payload
       = Some (JObject [("total", JInt 0); ("critical", JInt 0);
                        ("high", JInt 0); ("medium", JInt 0); ("low", JInt 0)])
    /\ Py.lookup "live_data" payload = Some (JBool true).
Proof.
  intros Hbody Hargs Hrun Hrc Hout.
  eexists. split; [ | split; [ reflexivity | repeat split ] ].
  unfold handler. rewrite Hbody, scan_and_report_object, <- scanned_image_field.
  unfold run. rewrite Hargs, Hrun. simpl.
  unfold report_scan. rewrite Hrc, Hout. reflexivity.
Qed.

(** ** The version query *)





Lemma except_is_not_200 (body : option json) (e : exn) (r : response) :
  except json_dumps exn_str body e = Ok r -> statusCode r <> 200.
Proof.
  destruct e; simpl; try (intros [= <-]; discriminate).
  destruct body as [b | ]; [ | discriminate ].
  destruct (Py.get b "image" (JString "unknown")); simpl; [ | discriminate ].
  intros [= <-]. discriminate.
Qed.



End HandlerProperties.

(** ** The theorems at work in the sample world *)


Lemma example_transform :
  transform Example.report = Ok [Example.report_finding].
Proof. reflexivity. Qed.




Lemma silent_success_is_an_empty_report_witness :
  exists payload,
    Example.handler
      (Example.world (Completed (mkCompleted 0 "" "")) Example.version_ok)
      (Example.event_with_body [("image", JString "alpine:3.19")])
    = Ok (respond Example.json_dumps 200 (JObject payload))
    /\ Py.lookup "vulnerabilities" payload = Some (JArray [])
    /\ Py.lookup "live_data" payload = Some (JBool true).
Proof.
  destruct (silent_success_is_an_empty_report Example.json_loads
              Example.json_dumps Example.exn_str Example.now_isoformat
              (Example.world (Completed (mkCompleted 0 "" "")) Example.version_ok)
              (Example.event_with_body [("image", JString "alpine:3.19")])
              [("image", JString "alpine:3.19")]
              (Example.default_args "alpine:3.19")
              (mkCompleted 0 "" "")
              eq_refl eq_refl eq_refl eq_refl eq_refl)
    as (payload & Hh & _ & Hv & _ & Hl).
  exists payload. split; [ exact Hh | ]. split; [ exact Hv | exact Hl ].
Defined.


(** * Further properties of the transformation *)

(** ** Truncation *)

Lemma take_length (n : nat) (s : string) :
  String.length (Py.take n s) = Nat.min n (String.length s).
Proof.
  revert s. induction n as [ | n IH ]; intros s; [ reflexivity | ].
  destruct s as [ | a s ]; simpl; [ reflexivity | ]. now rewrite IH.
Qed.

Lemma take_is_prefix (n : nat) (s : string) :
  exists rest, s = Py.take n s ++ rest.
Proof.
  revert s. induction n as [ | n IH ]; intros s; [ now exists s | ].
  destruct s as [ | a s ]; simpl; [ now exists "" | ].
  destruct (IH s) as (rest & H). exists rest. now rewrite <- H.
Qed.

Lemma normalize_fields (target : json) (fields : list (string * json))
    (v : finding) :
  normalize target (JObject fields) = Ok v ->
  severity v = Py.get_field fields "Severity" (JString "UNKNOWN")
  /\ extract_cvss_score (JObject fields) = Ok (cvss_score v)
  /\ Py.slice_to 500 (Py.get_field fields "Description" (JString ""))
     = Ok (description v)
  /\ Py.get target "Target" (JString "Unknown") = Ok (layer v)
  /\ Py.slice_to 3 (Py.get_field fields "References" (JArray []))
     = Ok (references v).
Proof.
  intros H. unfold normalize in H. simpl in H.
  invert_binds H. injection H as <-. simpl.
  repeat split; assumption.
Qed.

Lemma normalize_needs_a_dict (target vuln : json) (v : finding) :
  normalize target vuln = Ok v -> exists fields, vuln = JObject fields.
Proof.
  destruct vuln; try discriminate. intros _. now eexists.
Qed.

Lemma slice_to_at_most (n : nat) (x y : json) :
  Py.slice_to n x = Ok y -> at_most n y.
Proof.
  destruct x; try discriminate; intros [= <-]; simpl.
  - rewrite take_length. apply Nat.le_min_l.
  - rewrite length_firstn. apply Nat.le_min_l.
Qed.

(** The description of a finding is the raw text cut after 500 characters:
    a prefix of it, whole when the text is that short. *)
Theorem description_is_a_bounded_prefix (target : json)
    (fields : list (string * json)) (v : finding) (s : string) :
  normalize target (JObject fields) = Ok v ->
  Py.get_field fields "Description" (JString "") = JString s ->
  exists d rest,
    description v = JString d
    /\ s = d ++ rest
    /\ String.length d = Nat.min 500 (String.length s).
Proof.
  intros Hn Hs.
  destruct (normalize_fields target fields v Hn) as (_ & _ & Hd & _).
  rewrite Hs in Hd. injection Hd as Hd.
  destruct (take_is_prefix 500 s) as (rest & Hrest).
  exists (Py.take 500 s), rest.
  split; [ now symmetry | ]. split; [ exact Hrest | apply take_length ].
Qed.

(** The references of a finding are the first three of the raw list, in the
    order given. *)
Theorem references_are_the_first_three (target : json)
    (fields : list (string * json)) (v : finding) (refs : list json) :
  normalize target (JObject fields) = Ok v ->
  Py.get_field fields "References" (JArray []) = JArray refs ->
  exists kept rest,
    references v = JArray kept
    /\ refs = (kept ++ rest)%list
    /\ List.length kept = Nat.min 3 (List.length refs).
Proof.
  intros Hn Hr.
  destruct (normalize_fields target fields v Hn) as (_ & _ & _ & _ & Hrefs).
  rewrite Hr in Hrefs. injection Hrefs as Hrefs.
  exists (firstn 3 refs), (skipn 3 refs).
  split; [ now symmetry | ].
  split; [ symmetry; apply firstn_skipn | apply length_firstn ].
Qed.

(** ** Order and count *)

Lemma vuln_loop_pointwise (target : json) (vulns : list json) :
  forall acc vs,
    vuln_loop target vulns acc = Ok vs ->
    exists new,
      vs = (acc ++ new)%list
      /\ Forall2 (fun vuln v => normalize target vuln = Ok v) vulns new.
Proof.
  induction vulns as [ | vuln rest IH ]; simpl; intros acc vs H.
  - injection H as <-. exists []. split; [ now rewrite app_nil_r | constructor ].
  - apply bind_ok in H as (v & Hv & H).
    destruct (IH _ _ H) as (new & -> & Hall).
    exists (v :: new). split; [ now rewrite <- app_assoc | now constructor ].
Qed.

Lemma raw_findings_of_a_visited_target (target vs : json) (vulns : list json) :
  Py.get target "Vulnerabilities" (JArray []) = Ok vs ->
  Py.iter vs = Ok vulns ->
  raw_findings target = map (pair target) vulns.
Proof.
  destruct target; try discriminate.
  simpl. intros [= <-] Hiter. now rewrite Hiter.
Qed.

Lemma target_loop_pointwise (targets : list json) :
  forall acc vs,
    target_loop targets acc = Ok vs ->
    exists new,
      vs = (acc ++ new)%list
      /\ Forall2 (fun tv v => normalize (fst tv) (snd tv) = Ok v)
                 (flat_map raw_findings targets) new.
Proof.
  induction targets as [ | target rest IH ]; simpl; intros acc vs H.
  - injection H as <-. exists []. split; [ now rewrite app_nil_r | constructor ].
  - apply bind_ok in H as (vsj & Hget & H).
    apply bind_ok in H as (vulns & Hiter & H).
    apply bind_ok in H as (acc' & Hloop & H).
    destruct (vuln_loop_pointwise _ _ _ _ Hloop) as (new1 & -> & Hall1).
    destruct (IH _ _ H) as (new2 & -> & Hall2).
    exists (new1 ++ new2)%list. split; [ now rewrite app_assoc | ].
    apply Forall2_app; [ | exact Hall2 ].
    rewrite (raw_findings_of_a_visited_target target vsj vulns Hget Hiter).
    clear - Hall1. induction Hall1; simpl; now constructor.
Qed.

Lemma transform_pointwise (trivy_output : json) (vs : list finding) :
  transform trivy_output = Ok vs ->
  Forall2 (fun tv v => normalize (fst tv) (snd tv) = Ok v)
          (flat_map raw_findings (raw_targets trivy_output)) vs.
Proof.
  unfold transform. intros H.
  apply bind_ok in H as (results & Hget & H).
  apply bind_ok in H as (targets & Hiter & H).
  destruct trivy_output; try discriminate.
  simpl in Hget. injection Hget as <-.
  unfold raw_targets. rewrite Hiter.
  destruct (target_loop_pointwise _ _ _ H) as (new & -> & Hall).
  exact Hall.
Qed.

(** The findings of a report are the raw findings of the scanner's output,
    one for one: targets in the order given, and the findings of a target
    in the order given; none is dropped and none is added. *)
Theorem transform_keeps_every_finding_in_order (trivy_output : json)
    (vs : list finding) :
  transform trivy_output = Ok vs ->
  Forall2 (fun tv v => normalize (fst tv) (snd tv) = Ok v)
          (flat_map raw_findings (raw_targets trivy_output)) vs
  /\ List.length vs
     = List.length (flat_map raw_findings (raw_targets trivy_output)).
Proof.
  intros H. pose proof (transform_pointwise _ _ H) as Hall.
  split; [ exact Hall | ]. symmetry. now apply (Forall2_length Hall).
Qed.

Lemma Forall2_right {A B : Type} (R : A -> B -> Prop) (P : B -> Prop)
    (xs : list A) (ys : list B) :
  (forall x y, R x y -> P y) -> Forall2 R xs ys -> Forall P ys.
Proof. intros HRP H. induction H; constructor; eauto. Qed.

(** Whatever the scanner wrote, no finding of a report has a description
    of more than 500 characters or more than 3 references. *)
Theorem report_fields_are_bounded (trivy_output : json) (vs : list finding) :
  transform trivy_output = Ok vs ->
  Forall (fun v => at_most 500 (description v) /\ at_most 3 (references v)) vs.
Proof.
  intros H. apply transform_pointwise in H.
  refine (Forall2_right _ _ _ _ _ H). intros tv v Hn. simpl in Hn.
  destruct (normalize_needs_a_dict _ _ _ Hn) as (fields & Hv).
  rewrite Hv in Hn.
  destruct (normalize_fields _ _ _ Hn) as (_ & _ & Hd & _ & Hr).
  split; eapply slice_to_at_most; eassumption.
Qed.

Lemma Forall2_left {A B : Type} (R : A -> B -> Prop) (xs : list A)
    (ys : list B) (x : A) :
  Forall2 R xs ys -> In x xs -> exists y, R x y.
Proof.
  intros H. induction H as [ | x' y xs ys Hxy Hall IH ]; intros Hin;
    [ destruct Hin | ].
  destruct Hin as [-> | Hin]; [ now exists y | now apply IH ].
Qed.

(** A raw finding that cannot be normalized spoils the whole output: the
    transformation raises, it gives no partial list. *)
Theorem transform_is_all_or_nothing (trivy_output target vuln : json)
    (e : exn) :
  In (target, vuln) (flat_map raw_findings (raw_targets trivy_output)) ->
  normalize target vuln = Raise e ->
  exists e', transform trivy_output = Raise e'.
Proof.
  intros Hin Hbad.
  destruct (transform trivy_output) as [vs | e'] eqn:Ht; [ | now exists e' ].
  exfalso. apply transform_pointwise in Ht.
  destruct (Forall2_left _ _ _ _ Ht Hin) as (v & Hv).
  simpl in Hv. congruence.
Qed.

(** ** Findings without a severity *)

Lemma count_severity_app (label : string) (vs ws : list finding) :
  count_severity label (vs ++ ws)
  = (count_severity label vs + count_severity label ws)%nat.
Proof.
  induction vs as [ | v vs IH ]; [ reflexivity | ].
  simpl app. rewrite !count_severity_cons, IH. lia.
Qed.

Lemma named_buckets_snoc (vs : list finding) (v : finding) :
  named_buckets (summarize (vs ++ [v]))
  = (named_buckets (summarize vs) + bucket_weight v)%nat.
Proof.
  unfold named_buckets, summarize, bucket_weight; simpl.
  rewrite !count_severity_app, !count_severity_cons.
  unfold count_severity; simpl. lia.
Qed.

(** A raw finding that names no severity is reported as UNKNOWN; appended
    to a report it raises [total] by one and leaves the four buckets as
    they were. *)
Theorem finding_without_severity_counts_in_total_only (target : json)
    (fields : list (string * json)) (v : finding) :
  normalize target (JObject fields) = Ok v ->
  Py.lookup "Severity" fields = None ->
  severity v = JString "UNKNOWN"
  /\ forall vs,
       total (summarize (vs ++ [v])) = S (total (summarize vs))
       /\ critical (summarize (vs ++ [v])) = critical (summarize vs)
       /\ high (summarize (vs ++ [v])) = high (summarize vs)
       /\ medium (summarize (vs ++ [v])) = medium (summarize vs)
       /\ low (summarize (vs ++ [v])) = low (summarize vs).
Proof.
  intros Hn Hs.
  destruct (normalize_fields target fields v Hn) as (Hsev & _).
  unfold Py.get_field in Hsev. rewrite Hs in Hsev.
  split; [ exact Hsev | ].
  intros vs. simpl.
  rewrite length_app, !count_severity_app, !count_severity_cons, Hsev.
  unfold count_severity; simpl. repeat split; lia.
Qed.

Lemma finding_without_severity_counts_in_total_only_witness :
  total (summarize ([Example.report_finding]
                    ++ [mkFinding (JString "CVE-2024-0002") (JString "Unknown")
                          (JString "Unknown") (JString "No fix available")
                          (JString "UNKNOWN") (JInt 0) (JString "")
                          (JString "Unknown") (JArray [])]))
  = 2%nat.
Proof.
  exact (proj1 (proj2 (finding_without_severity_counts_in_total_only
                         (JObject [])
                         [("VulnerabilityID", JString "CVE-2024-0002")]
                         _ eq_refl eq_refl)
                      [Example.report_finding])).
Defined.

(** * Further properties of get_trivy_version *)

Lemma first_line_has_no_newline (s : string) :
  has_char newline (Py.first_line s) = false.
Proof.
  induction s as [ | a s IH ]; [ reflexivity | ].
  cbn [Py.first_line].
  destruct (Ascii.eqb_spec a "010"%char) as [-> | Hne]; [ reflexivity | ].
  cbn [has_char]. rewrite IH, orb_false_r.
  apply Ascii.eqb_neq. intros E. apply Hne. now rewrite <- E.
Qed.

Lemma lstrip_starts_without_space (s : string) :
  starts_with_space (Py.lstrip s) = false.
Proof.
  induction s as [ | a s IH ]; [ reflexivity | ].
  simpl. destruct (Py.is_space a) eqn:Ha; [ exact IH | exact Ha ].
Qed.

Lemma rstrip_keeps_the_start (s : string) :
  starts_with_space s = false -> starts_with_space (Py.rstrip s) = false.
Proof.
  destruct s as [ | a s ]; [ reflexivity | ].
  simpl. intros Ha.
  destruct (Py.rstrip s); [ now rewrite Ha | exact Ha ].
Qed.

Lemma first_line_keeps_the_start (s : string) :
  starts_with_space s = false -> starts_with_space (Py.first_line s) = false.
Proof.
  destruct s as [ | a s ]; [ reflexivity | ].
  simpl. intros Ha. destruct (Ascii.eqb a "010"%char); [ reflexivity | exact Ha ].
Qed.

(** Whatever the version query does, the version reported is one line: it
    holds no line break and does not begin with white space. *)
Theorem trivy_version_is_one_line (world : list string -> Z -> run_outcome) :
  has_char newline (get_trivy_version world) = false
  /\ starts_with_space (get_trivy_version world) = false.
Proof.
  unfold get_trivy_version.
  destruct (world version_cmd 10) as [p | e]; [ | split; reflexivity ].
  split; [ apply first_line_has_no_newline | ].
  apply first_line_keeps_the_start, rstrip_keeps_the_start,
    lstrip_starts_without_space.
Qed.

Lemma lstrip_unspaced (s : string) :
  starts_with_space s = false -> Py.lstrip s = s.
Proof.
  destruct s as [ | a s ]; [ reflexivity | ].
  simpl. now intros ->.
Qed.

Lemma rstrip_after_a_word (line tail : string) :
  line <> "" -> ends_with_space line = false ->
  Py.rstrip (line ++ tail) = line ++ Py.rstrip tail.
Proof.
  induction line as [ | a line IH ]; [ congruence | ].
  intros _ Hend. destruct line as [ | b line ].
  - simpl in *. destruct (Py.rstrip tail); [ now rewrite Hend | reflexivity ].
  - change (ends_with_space (String a (String b line)))
      with (ends_with_space (String b line)) in Hend.
    change ((String a (String b line)) ++ tail)
      with (String a (String b line ++ tail)).
    change (Py.rstrip (String a (String b line ++ tail)))
      with (match Py.rstrip (String b line ++ tail) with
            | EmptyString =>
                if Py.is_space a then EmptyString else String a EmptyString
            | t => String a t
            end).
    rewrite IH by (discriminate || exact Hend). reflexivity.
Qed.

Lemma first_line_of_a_line (line tail : string) :
  has_char newline line = false ->
  Py.first_line (line ++ tail) = line ++ Py.first_line tail.
Proof.
  induction line as [ | a line IH ]; [ reflexivity | ].
  cbn [has_char]. intros H. apply orb_false_iff in H as [Ha Hl].
  change (String a line ++ tail) with (String a (line ++ tail)).
  cbn [Py.first_line].
  destruct (Ascii.eqb_spec a "010"%char) as [-> | _]; [ discriminate | ].
  rewrite IH by exact Hl. reflexivity.
Qed.

Lemma first_line_after_newline (tail : string) :
  Py.first_line (Py.rstrip (String newline tail)) = "".
Proof.
  simpl. destruct (Py.rstrip tail); reflexivity.
Qed.

(** When the version query completes and its output begins with a line that
    has no white space at either end, that line is the version reported,
    whatever follows it. *)
Theorem trivy_version_is_the_first_line
    (world : list string -> Z -> run_outcome) (proc : completed_process)
    (line tail : string) :
  world version_cmd 10 = Completed proc ->
  stdout proc = line ++ String newline tail ->
  line <> "" ->
  has_char newline line = false ->
  starts_with_space line = false ->
  ends_with_space line = false ->
  get_trivy_version world = line.
Proof.
  intros Hrun Hout Hne Hnl Hstart Hend.
  unfold get_trivy_version, Py.strip. rewrite Hrun, Hout.
  rewrite lstrip_unspaced.
  - rewrite rstrip_after_a_word by assumption.
    rewrite first_line_of_a_line by assumption.
    rewrite first_line_after_newline.
    clear. induction line as [ | a line IH ]; [ reflexivity | ].
    simpl. now rewrite IH.
  - destruct line; [ congruence | exact Hstart ].
Qed.

Lemma trivy_version_is_the_first_line_witness :
  get_trivy_version
    (Example.world (Completed (mkCompleted 0 "" "")) Example.version_ok)
  = "Version: 0.50.1".
Proof.
  apply (trivy_version_is_the_first_line
           (Example.world (Completed (mkCompleted 0 "" "")) Example.version_ok)
           (mkCompleted 0 Example.version_output "")
           "Version: 0.50.1"
           ("Vulnerability DB:" ++ Example.nl)).
  - reflexivity.
  - reflexivity.
  - discriminate.
  - reflexivity.
  - reflexivity.
  - reflexivity.
Defined.

(** * Further properties of the handler *)

Section RequestsAndResponses.

Variable json_loads : string -> option json.
Variable json_dumps : json -> string.
Variable exn_str : exn -> string.
Variable now_isoformat : string.

Implicit Types world : list string -> Z -> run_outcome.

Lemma parse_body_raises (event : json) (e : exn) :
  parse_body json_loads event = Raise e ->
  e = JSONDecodeError \/ e = AttributeError.
Proof.
  unfold parse_body.
  destruct event; simpl; try (intros [= <-]; now right).
  destruct (Py.get_field fields "body" JNull); simpl; try discriminate.
  unfold loads. destruct (json_loads s); [ discriminate | ].
  intros [= <-]. now left.
Qed.

Lemma handler_of_a_scan world (event : json) (fields : list (string * json))
    (args : list string) :
  parse_body json_loads event = Ok (JObject fields) ->
  str_args (request_command fields) = Some args ->
  handler json_loads json_dumps exn_str now_isoformat world event
  = match world args 280 with
    | Completed proc =>
        match report_scan json_loads json_dumps now_isoformat world
                (scanned_image fields) proc with
        | Ok r => Ok r
        | Raise e => except json_dumps exn_str (Some (JObject fields)) e
        end
    | Raises e => except json_dumps exn_str (Some (JObject fields)) e
    end.
Proof.
  intros Hbody Hargs. unfold handler.
  rewrite Hbody, scan_and_report_object, scanned_image_field.
  unfold run. rewrite Hargs.
  now destruct (world args 280).
Qed.

Lemma scan_words_some (event : json) (args : list string) :
  scan_words json_loads event = Some args ->
  exists fields,
    parse_body json_loads event = Ok (JObject fields)
    /\ str_args (request_command fields) = Some args.
Proof.
  unfold scan_words.
  destruct (parse_body json_loads event) as [body | e]; [ | discriminate ].
  destruct body; try discriminate.
  intros H. now exists fields.
Qed.

(** A request that is turned down (its body does not decode, is not a dict,
    or names an image or a filter that is not a string) gets the generic
    500 with the text of a JSONDecodeError, AttributeError or TypeError,
    and no process is started: the answer is the same in every world. *)
Theorem rejected_request_starts_no_scan (event : json) :
  scan_words json_loads event = None ->
  exists e,
    (e = JSONDecodeError \/ e = AttributeError \/ e = TypeError)
    /\ forall world,
         handler json_loads json_dumps exn_str now_isoformat world event
         = Ok (respond json_dumps 500 (error_body (exn_str e) None)).
Proof.
  unfold scan_words, handler.
  destruct (parse_body json_loads event) as [body | e] eqn:Hbody.
  - destruct body;
      try (intros _; exists AttributeError; split; [ tauto | reflexivity ]).
    intros Hargs. exists TypeError. split; [ tauto | ].
    intros world. rewrite scan_and_report_object. unfold run.
    now rewrite Hargs.
  - intros _. exists e.
    destruct (parse_body_raises event e Hbody) as [-> | ->];
      (split; [ tauto | reflexivity ]).
Qed.


(** Output that is there but does not decode gives the generic 500 with
    the decoder's message, whatever the exit status; the body names no
    image. *)
Theorem undecodable_output_is_500 world (event : json) (args : list string)
    (proc : completed_process) :
  scan_words json_loads event = Some args ->
  world args 280 = Completed proc ->
  stdout proc <> "" ->
  json_loads (stdout proc) = None ->
  handler json_loads json_dumps exn_str now_isoformat world event
  = Ok (respond json_dumps 500 (error_body (exn_str JSONDecodeError) None)).
Proof.
  intros Hwords Hscan Hout Hloads.
  destruct (scan_words_some event args Hwords) as (fields & Hbody & Hargs).
  rewrite (handler_of_a_scan _ event fields args Hbody Hargs), Hscan.
  apply truthy_string in Hout.
  unfold report_scan. rewrite Hout, andb_false_r.
  unfold loads. now rewrite Hloads.
Qed.

(** Output that decodes but cannot be transformed gives the generic 500
    with the text of the exception the transformation raised (never a 504
    and never a partial report). *)
Theorem failed_transformation_is_500 world (event : json) (args : list string)
    (proc : completed_process) (out : json) (e : exn) :
  scan_words json_loads event = Some args ->
  world args 280 = Completed proc ->
  stdout proc <> "" ->
  json_loads (stdout proc) = Some out ->
  transform out = Raise e ->
  handler json_loads json_dumps exn_str now_isoformat world event
  = Ok (respond json_dumps 500 (error_body (exn_str e) None)).
Proof.
  intros Hwords Hscan Hout Hloads Ht.
  destruct (scan_words_some event args Hwords) as (fields & Hbody & Hargs).
  rewrite (handler_of_a_scan _ event fields args Hbody Hargs), Hscan.
  apply truthy_string in Hout.
  unfold report_scan. rewrite Hout, andb_false_r.
  unfold loads. rewrite Hloads. simpl. rewrite Ht. simpl.
  pose proof (quiet_transform out) as Hq. rewrite Ht in Hq.
  destruct e; try reflexivity. now contradiction Hq.
Qed.

(** A 200 is always backed by a finished scan: the request was taken on,
    the scanner completed, its output was empty with exit status zero or
    decoded, the transformation went through, and the report names the
    image handed to the scanner and lists the findings so obtained. *)
Theorem a_200_is_backed_by_a_scan world (event : json) (r : response) :
  handler json_loads json_dumps exn_str now_isoformat world event = Ok r ->
  statusCode r = 200 ->
  exists fields args proc out vs,
    parse_body json_loads event = Ok (JObject fields)
    /\ str_args (request_command fields) = Some args
    /\ world args 280 = Completed proc
    /\ (stdout proc = "" /\ returncode proc = 0 /\ out = JObject []
        \/ stdout proc <> "" /\ json_loads (stdout proc) = Some out)
    /\ transform out = Ok vs
    /\ r = respond json_dumps 200
             (report_body (scanned_image fields) now_isoformat vs
                (get_trivy_version world)).
Proof.
  intros H Hs.
  assert (exists fields, parse_body json_loads event = Ok (JObject fields))
    as (fields & Hbody).
  { unfold handler in H.
    destruct (parse_body json_loads event) as [body | e];
      [ | now apply except_is_not_200 in H ].
    destruct (is_object body) eqn:Hobj;
      [ destruct body; try discriminate; now eexists | ].
    rewrite scan_and_report_not_object in H by exact Hobj.
    now apply except_is_not_200 in H. }
  destruct (str_args (request_command fields)) as [args | ] eqn:Hargs.
  - rewrite (handler_of_a_scan world event fields args Hbody Hargs) in H.
    destruct (world args 280) as [proc | e] eqn:Hrun;
      [ | now apply except_is_not_200 in H ].
    destruct (report_scan json_loads json_dumps now_isoformat world
                (scanned_image fields) proc) as [r0 | e] eqn:Hrep;
      [ | now apply except_is_not_200 in H ].
    injection H as ->.
    unfold report_scan in Hrep.
    destruct (String.eqb_spec (stdout proc) "") as [Hout | Hout].
    + rewrite Hout in Hrep. simpl in Hrep. rewrite andb_true_r in Hrep.
      destruct (Z.eqb_spec (returncode proc) 0) as [Hrc | Hrc]; simpl in Hrep.
      * injection Hrep as <-.
        exists fields, args, proc, (JObject []), [].
        repeat split; try assumption. now left.
      * injection Hrep as <-. discriminate.
    + pose proof Hout as Htruthy. apply truthy_string in Htruthy.
      rewrite Htruthy, andb_false_r in Hrep.
      apply bind_ok in Hrep as (out & Hloads & Hrep).
      apply bind_ok in Hrep as (vs & Hvs & Hrep). injection Hrep as <-.
      unfold loads in Hloads.
      destruct (json_loads (stdout proc)) as [out' | ] eqn:Hdec;
        [ | discriminate ].
      injection Hloads as ->.
      exists fields, args, proc, out, vs.
      repeat split; try assumption. right. now split.
  - unfold handler in H. rewrite Hbody, scan_and_report_object in H.
    unfold run in H. rewrite Hargs in H. simpl in H.
    injection H as <-. discriminate.
Qed.

(** A 504 comes from nothing but the scan running out of time. *)
Theorem a_504_means_the_scan_timed_out world (event : json) (r : response) :
  handler json_loads json_dumps exn_str now_isoformat world event = Ok r ->
  statusCode r = 504 ->
  exists args,
    scan_words json_loads event = Some args
    /\ world args 280 = Raises TimeoutExpired.
Proof.
  intros H Hs. unfold scan_words.
  assert (forall body e, except json_dumps exn_str body e = Ok r ->
                         e = TimeoutExpired) as Hexc.
  { intros body e He.
    destruct e; try reflexivity; simpl in He; injection He as <-; discriminate. }
  unfold handler in H.
  pose proof (quiet_parse_body json_loads event) as Hq.
  destruct (parse_body json_loads event) as [body | e].
  - destruct (is_object body) eqn:Hobj.
    + destruct body; try discriminate.
      rewrite scan_and_report_object in H. unfold run in H.
      destruct (str_args (request_command fields)) as [args | ];
        [ | simpl in H; injection H as <-; discriminate ].
      exists args. split; [ reflexivity | ].
      destruct (world args 280) as [proc | e]; simpl in H.
      * destruct (report_scan_outcome json_loads json_dumps now_isoformat world
                    (Py.get_field fields "image" (JString "nginx:latest")) proc)
          as [(st & payload & Hr & Hst) | (e & Hr & Hne)]; rewrite Hr in H.
        -- injection H as <-. simpl in Hs. lia.
        -- apply Hexc in H. contradiction.
      * apply Hexc in H. now subst.
    + rewrite scan_and_report_not_object in H by exact Hobj.
      apply Hexc in H. discriminate.
  - apply Hexc in H. subst. now contradiction Hq.
Qed.

(** A body given as JSON text of an object is handled like the same object
    given as a dict. *)
Theorem text_body_and_dict_body_agree world
    (event event' : list (string * json)) (text : string)
    (fields : list (string * json)) :
  Py.lookup "body" event = Some (JString text) ->
  json_loads text = Some (JObject fields) ->
  Py.lookup "body" event' = Some (JObject fields) ->
  handler json_loads json_dumps exn_str now_isoformat world (JObject event)
  = handler json_loads json_dumps exn_str now_isoformat world (JObject event').
Proof.
  intros Htext Hloads Hdict.
  assert (parse_body json_loads (JObject event) = Ok (JObject fields)) as H1.
  { unfold parse_body, Py.get, Py.get_field. rewrite Htext. simpl.
    unfold loads. now rewrite Hloads. }
  assert (parse_body json_loads (JObject event') = Ok (JObject fields)) as H2.
  { unfold parse_body, Py.get, Py.get_field. rewrite Hdict. simpl.
    now destruct fields. }
  unfold handler. now rewrite H1, H2.
Qed.

(** An event without a body, or with a body that is not a string and
    counts as false (null, false, 0, an empty list or dict), is handled as
    the empty request: the defaults apply. *)
Theorem falsy_body_is_the_empty_request world (event : list (string * json)) :
  (Py.lookup "body" event = None
   \/ exists b, Py.lookup "body" event = Some b
                /\ is_string b = false /\ Py.truthy b = false) ->
  parse_body json_loads (JObject event) = Ok (JObject [])
  /\ handler json_loads json_dumps exn_str now_isoformat world (JObject event)
     = handler json_loads json_dumps exn_str now_isoformat world
         (JObject [("body", JObject [])]).
Proof.
  intros H.
  assert (parse_body json_loads (JObject event) = Ok (JObject [])) as Hp.
  { unfold parse_body, Py.get, Py.get_field.
    destruct H as [-> | (b & -> & Hstr & Hfalse)]; [ reflexivity | ].
    simpl. destruct b; try discriminate; simpl in *; now rewrite ?Hfalse. }
  split; [ exact Hp | ].
  unfold handler. now rewrite Hp.
Qed.

End RequestsAndResponses.

(** ** The further theorems at work in the sample worlds *)

Lemma description_is_a_bounded_prefix_witness :
  exists d rest,
    description
      (mkFinding (JString "N/A") (JString "Unknown") (JString "Unknown")
         (JString "No fix available") (JString "UNKNOWN") (JInt 0)
         (JString "Heap overflow in the parser") (JString "Unknown") (JArray []))
    = JString d
    /\ "Heap overflow in the parser" = d ++ rest
    /\ String.length d = Nat.min 500 (String.length "Heap overflow in the parser").
Proof.
  exact (description_is_a_bounded_prefix (JObject [])
           [("Description", JString "Heap overflow in the parser")]
           _ "Heap overflow in the parser" eq_refl eq_refl).
Defined.

Lemma references_are_the_first_three_witness :
  exists kept rest,
    references
      (mkFinding (JString "N/A") (JString "Unknown") (JString "Unknown")
         (JString "No fix available") (JString "UNKNOWN") (JInt 0)
         (JString "") (JString "Unknown")
         (JArray [JString "a"; JString "b"; JString "c"]))
    = JArray kept
    /\ [JString "a"; JString "b"; JString "c"; JString "d"] = (kept ++ rest)%list
    /\ List.length kept = Nat.min 3 4.
Proof.
  exact (references_are_the_first_three (JObject [])
           [("References",
             JArray [JString "a"; JString "b"; JString "c"; JString "d"])]
           _ [JString "a"; JString "b"; JString "c"; JString "d"]
           eq_refl eq_refl).
Defined.

Lemma transform_keeps_every_finding_in_order_witness :
  List.length [Example.report_finding]
  = List.length (flat_map raw_findings (raw_targets Example.report)).
Proof.
  exact (proj2 (transform_keeps_every_finding_in_order Example.report
                  [Example.report_finding] eq_refl)).
Defined.

Lemma report_fields_are_bounded_witness :
  Forall (fun v => at_most 500 (description v) /\ at_most 3 (references v))
         [Example.report_finding].
Proof.
  exact (report_fields_are_bounded Example.report [Example.report_finding]
           eq_refl).
Defined.

Lemma transform_is_all_or_nothing_witness :
  exists e,
    transform
      (JObject [("Results",
                 JArray [JObject [("Vulnerabilities",
                                   JArray [JObject []; JString "CVE-2024-0001"])]])])
    = Raise e.
Proof.
  apply (transform_is_all_or_nothing _
           (JObject [("Vulnerabilities",
                      JArray [JObject []; JString "CVE-2024-0001"])])
           (JString "CVE-2024-0001") AttributeError).
  - simpl. right. now left.
  - reflexivity.
Defined.

Lemma rejected_request_starts_no_scan_witness :
  exists e,
    (e = JSONDecodeError \/ e = AttributeError \/ e = TypeError)
    /\ forall world,
         Example.handler world (Sample.event_with_text "image=nginx")
         = Ok (respond Example.json_dumps 500
                 (error_body (Example.exn_str e) None)).
Proof.
  exact (rejected_request_starts_no_scan Example.json_loads Example.json_dumps
           Example.exn_str Example.now_isoformat
           (Sample.event_with_text "image=nginx") eq_refl).
Defined.


Lemma undecodable_output_is_500_witness :
  Example.handler
    (Example.world (Completed (mkCompleted 0 "FATAL: no such image" ""))
       Example.version_ok)
    (Example.event_with_body [("image", JString "alpine:3.19")])
  = Ok (respond Example.json_dumps 500
          (error_body (Example.exn_str JSONDecodeError) None)).
Proof.
  apply (undecodable_output_is_500 Example.json_loads Example.json_dumps
           Example.exn_str Example.now_isoformat
           (Example.world (Completed (mkCompleted 0 "FATAL: no such image" ""))
              Example.version_ok)
           (Example.event_with_body [("image", JString "alpine:3.19")])
           (Example.default_args "alpine:3.19")
           (mkCompleted 0 "FATAL: no such image" "")).
  - reflexivity.
  - reflexivity.
  - discriminate.
  - reflexivity.
Defined.

Lemma failed_transformation_is_500_witness :
  Example.handler
    (Example.world (Completed (mkCompleted 0 "[]" "")) Example.version_ok)
    (Example.event_with_body [("image", JString "alpine:3.19")])
  = Ok (respond Example.json_dumps 500
          (error_body (Example.exn_str AttributeError) None)).
Proof.
  apply (failed_transformation_is_500 Example.json_loads Example.json_dumps
           Example.exn_str Example.now_isoformat
           (Example.world (Completed (mkCompleted 0 "[]" "")) Example.version_ok)
           (Example.event_with_body [("image", JString "alpine:3.19")])
           (Example.default_args "alpine:3.19")
           (mkCompleted 0 "[]" "") (JArray []) AttributeError).
  - reflexivity.
  - reflexivity.
  - discriminate.
  - reflexivity.
  - reflexivity.
Defined.

Lemma a_200_is_backed_by_a_scan_witness :
  exists fields args proc out vs,
    parse_body Example.json_loads
      (Example.event_with_body [("image", JString "alpine:3.19")])
    = Ok (JObject fields)
    /\ str_args (request_command fields) = Some args
    /\ Example.world (Completed (mkCompleted 1 Example.report_text ""))
         Example.version_ok args 280
       = Completed proc
    /\ (stdout proc = "" /\ returncode proc = 0 /\ out = JObject []
        \/ stdout proc <> "" /\ Example.json_loads (stdout proc) = Some out)
    /\ transform out = Ok vs
    /\ respond Example.json_dumps 200
         (report_body (JString "alpine:3.19") Example.now_isoformat
            [Example.report_finding] "Version: 0.50.1")
       = respond Example.json_dumps 200
           (report_body (scanned_image fields) Example.now_isoformat vs
              (get_trivy_version
                 (Example.world (Completed (mkCompleted 1 Example.report_text ""))
                    Example.version_ok))).
Proof.
  exact (a_200_is_backed_by_a_scan Example.json_loads Example.json_dumps
           Example.exn_str Example.now_isoformat
           (Example.world (Completed (mkCompleted 1 Example.report_text ""))
              Example.version_ok)
           (Example.event_with_body [("image", JString "alpine:3.19")])
           (respond Example.json_dumps 200
              (report_body (JString "alpine:3.19") Example.now_isoformat
                 [Example.report_finding] "Version: 0.50.1"))
           eq_refl eq_refl).
Defined.

Lemma a_504_means_the_scan_timed_out_witness :
  exists args,
    scan_words Example.json_loads
      (Example.event_with_body [("image", JString "registry.local/big:1")])
    = Some args
    /\ Example.world (Raises TimeoutExpired) Example.version_ok args 280
       = Raises TimeoutExpired.
Proof.
  exact (a_504_means_the_scan_timed_out Example.json_loads Example.json_dumps
           Example.exn_str Example.now_isoformat
           (Example.world (Raises TimeoutExpired) Example.version_ok)
           (Example.event_with_body [("image", JString "registry.local/big:1")])
           (respond Example.json_dumps 504
              (error_body timeout_message
                 (Some (JString "registry.local/big:1"))))
           eq_refl eq_refl).
Defined.

Lemma text_body_and_dict_body_agree_witness :
  Sample.handler
    (Example.world (Completed (mkCompleted 0 "" "")) Example.version_ok)
    (Sample.event_with_text "{}")
  = Sample.handler
      (Example.world (Completed (mkCompleted 0 "" "")) Example.version_ok)
      (Example.event_with_body []).
Proof.
  exact (text_body_and_dict_body_agree Sample.json_loads Example.json_dumps
           Example.exn_str Example.now_isoformat
           (Example.world (Completed (mkCompleted 0 "" "")) Example.version_ok)
           [("body", JString "{}")] [("body", JObject [])] "{}" []
           eq_refl eq_refl eq_refl).
Defined.

Lemma falsy_body_is_the_empty_request_witness :
  parse_body Example.json_loads (JObject [("body", JInt 0)]) = Ok (JObject []).
Proof.
  refine (proj1 (falsy_body_is_the_empty_request Example.json_loads
                   Example.json_dumps Example.exn_str Example.now_isoformat
                   (Example.world (Completed (mkCompleted 0 "" ""))
                      Example.version_ok)
                   [("body", JInt 0)] _)).
  right. exists (JInt 0). repeat split.
Defined.

(** ** The exit status *)

(** Once the scanner has written something, its exit status and its stderr
    play no part: output that decodes and transforms is reported with 200
    whatever the status. *)
Theorem output_that_transforms_is_reported
    (json_loads : string -> option json) (json_dumps : json -> string)
    (exn_str : exn -> string) (now_isoformat : string)
    (world : list string -> Z -> run_outcome) (event : json)
    (fields : list (string * json)) (args : list string)
    (proc : completed_process) (out : json) (vs : list finding) :
  parse_body json_loads event = Ok (JObject fields) ->
  str_args (request_command fields) = Some args ->
  world args 280 = Completed proc ->
  stdout proc <> "" ->
  json_loads (stdout proc) = Some out ->
  transform out = Ok vs ->
  handler json_loads json_dumps exn_str now_isoformat world event
  = Ok (respond json_dumps 200
          (report_body (scanned_image fields) now_isoformat vs
             (get_trivy_version world))).
Proof.
  intros Hbody Hargs Hscan Hout Hloads Ht.
  rewrite (handler_of_a_scan json_loads json_dumps exn_str now_isoformat
             world event fields args Hbody Hargs), Hscan.
  apply truthy_string in Hout.
  unfold report_scan. rewrite Hout, andb_false_r.
  unfold loads. rewrite Hloads. simpl. now rewrite Ht.
Qed.

Lemma output_that_transforms_is_reported_witness :
  Example.handler
    (Example.world (Completed (mkCompleted 0 Example.report_text "warning"))
       Example.version_ok)
    (Example.event_with_body [("image", JString "alpine:3.19")])
  = Ok (respond Example.json_dumps 200
          (report_body (JString "alpine:3.19") Example.now_isoformat
             [Example.report_finding] "Version: 0.50.1")).
Proof.
  apply (output_that_transforms_is_reported Example.json_loads
           Example.json_dumps Example.exn_str Example.now_isoformat
           (Example.world (Completed (mkCompleted 0 Example.report_text "warning"))
              Example.version_ok)
           (Example.event_with_body [("image", JString "alpine:3.19")])
           [("image", JString "alpine:3.19")]
           (Example.default_args "alpine:3.19")
           (mkCompleted 0 Example.report_text "warning")
           Example.report [Example.report_finding]).
  - reflexivity.
  - reflexivity.
  - reflexivity.
  - vm_compute. discriminate.
  - reflexivity.
  - reflexivity.
Defined.
